(** * Expense tracker: ledger store and aggregator

    A shallow embedding of [Expense_tracker.py].  The script keeps every
    transaction in one sheet of one workbook and handles each user action by
    loading the whole sheet into a pandas frame, editing the frame and writing
    the whole sheet back.  The embedding follows the script: frames are lists
    of labelled rows of cells, the workbook is an explicit state that every
    handler takes and returns, and exceptions are explicit results.

    Amounts are Python floats in the script; they are modelled as exact
    rationals, so nothing here speaks about rounding. *)

From Stdlib Require Import List String Ascii Bool Arith NArith Lia QArith
  Permutation Sorted.
Import ListNotations.
Close Scope Q_scope.
Open Scope string_scope.
Open Scope list_scope.

Set Implicit Arguments.

(** ** Timestamps *)

Record datetime := mkDatetime {
  year : nat; month : nat; day : nat;
  hour : nat; minute : nat; second : nat
}.

Definition digit (n : nat) : ascii := ascii_of_nat (48 + n mod 10).

Definition pad2 (n : nat) : string :=
  String (digit (n / 10)) (String (digit n) "").

Definition pad4 (n : nat) : string :=
  String (digit (n / 1000)) (String (digit (n / 100)) (pad2 n)).

(** [datetime.now().strftime("%Y-%m-%d %H:%M")] (years 1000 to 9999). *)
Definition strftime (d : datetime) : string :=
  pad4 (year d) ++ "-" ++ pad2 (month d) ++ "-" ++ pad2 (day d) ++ " "
    ++ pad2 (hour d) ++ ":" ++ pad2 (minute d).

(** The text of a monthly period, as [.dt.to_period("M").astype(str)] gives
    it for a valid timestamp. *)
Definition month_key (d : datetime) : string :=
  pad4 (year d) ++ "-" ++ pad2 (month d).

(** ** Cells and frames *)

(** A cell of a frame or of a sheet.  [CMissing] stands for NaN, NaT and
    None alike, and for a blank cell of the sheet. *)
Inductive cell :=
| CText (s : string)
| CNumber (q : Q)
| CBool (b : bool)
| CTimestamp (d : datetime)
| CMissing.

(** A frame: column names, and rows carrying their index label. *)
Record DataFrame := mkFrame {
  columns : list string;
  rows : list (nat * list cell)
}.

(** [df.empty]: some axis has length zero. *)
Definition empty (df : DataFrame) : bool :=
  match columns df, rows df with
  | _ :: _, _ :: _ => false
  | _, _ => true
  end.

Fixpoint index_of (name : string) (cols : list string) : option nat :=
  match cols with
  | [] => None
  | c :: cs => if String.eqb c name then Some 0
               else option_map S (index_of name cs)
  end.

(** [df[name]] as a list of cells; [None] is the KeyError of an absent
    column. *)
Definition column (name : string) (df : DataFrame) : option (list cell) :=
  match index_of name (columns df) with
  | Some j => Some (map (fun r => nth j (snd r) CMissing) (rows df))
  | None => None
  end.

Fixpoint replace_nth {A} (j : nat) (x : A) (l : list A) : list A :=
  match j, l with
  | _, [] => []
  | O, _ :: t => x :: t
  | S j', h :: t => h :: replace_nth j' x t
  end.

(** [df[name] = values]: an existing column is overwritten in place, a new
    one is added on the right. *)
Definition set_column (name : string) (vals : list cell) (df : DataFrame)
  : DataFrame :=
  match index_of name (columns df) with
  | Some j =>
      mkFrame (columns df)
        (map (fun rv => (fst (fst rv), replace_nth j (snd rv) (snd (fst rv))))
             (combine (rows df) vals))
  | None =>
      mkFrame (columns df ++ [name])
        (map (fun rv => (fst (fst rv), snd (fst rv) ++ [snd rv]))
             (combine (rows df) vals))
  end.

(** ** Constants of the script *)

Inductive category :=
| Housing | Utilities | Food | Transportation | Insurance | Healthcare
| DebtPayments | SavingsInvestments | PersonalCare | Entertainment
| Clothing | Miscellaneous.

Definition category_name (c : category) : string :=
  match c with
  | Housing => "Housing" | Utilities => "Utilities" | Food => "Food"
  | Transportation => "Transportation" | Insurance => "Insurance"
  | Healthcare => "Healthcare" | DebtPayments => "Debt Payments"
  | SavingsInvestments => "Savings & Investments"
  | PersonalCare => "Personal Care" | Entertainment => "Entertainment"
  | Clothing => "Clothing" | Miscellaneous => "Miscellaneous"
  end.

Definition CATEGORIES : list string :=
  map category_name
    [Housing; Utilities; Food; Transportation; Insurance; Healthcare;
     DebtPayments; SavingsInvestments; PersonalCare; Entertainment;
     Clothing; Miscellaneous].

Definition SHEET_NAME : string := "Expenses".

Definition COLUMNS : list string :=
  ["Date"; "Category"; "Amount (INR)"; "Type"; "Note"].

(** The two choices of the "Type" radio button. *)
Inductive txn_type := Expense | IncomeSavings.

Definition txn_type_name (t : txn_type) : string :=
  match t with Expense => "Expense" | IncomeSavings => "Income/Savings" end.

(** ** The workbook on disk *)

Record sheet := mkSheet {
  header : list string;
  body : list (list cell)
}.

(** What is at the path [EXCEL_FILE]: nothing, bytes that are not a
    workbook (a truncated or damaged file), or a workbook with its named
    sheets. *)
Inductive excel_file :=
| Missing
| Unreadable
| Workbook (sheets : list (string * sheet)).

Fixpoint find_sheet (name : string) (sheets : list (string * sheet))
  : option sheet :=
  match sheets with
  | [] => None
  | (n, sh) :: rest => if String.eqb n name then Some sh
                       else find_sheet name rest
  end.

(** *** Writing: [df.to_excel(writer, index=False, sheet_name=SHEET_NAME)] *)

(** openpyxl stores a text of more than one character that begins with [=]
    as a formula, which has no value when the sheet is read back. *)
Definition is_formula (s : string) : bool :=
  match s with
  | String "="%char (String _ _) => true
  | _ => false
  end.

(** A missing value is written through [na_rep=''], and an empty text is an
    empty cell. *)
Definition write_cell (c : cell) : cell :=
  match c with
  | CText s => if String.eqb s "" || is_formula s then CMissing else CText s
  | _ => c
  end.

Definition to_excel (df : DataFrame) : sheet :=
  mkSheet (columns df) (map (fun r => map write_cell (snd r)) (rows df)).

(** ** Results and notices *)

(** A step of the script either yields a value or raises. *)
Inductive result (A : Type) :=
| Ok (a : A)
| Raise (exception : string).

Arguments Ok {A} a.
Arguments Raise {A} exception.

(** What a handler shows to the user. *)
Inductive notice :=
| StError (text : string)
| StInfo (text : string)
| Added (t : txn_type) (c : category) (amount : Q)
| Removed (row : list cell)
| Deleted (count : nat)
| Quiet
| Uncaught (exception : string).

(** ** Sorting and distinct values *)

Section InsertionSort.

Variable A : Type.
Variable le : A -> A -> bool.

Fixpoint insert_sorted (x : A) (l : list A) : list A :=
  match l with
  | [] => [x]
  | y :: t => if le x y then x :: y :: t else y :: insert_sorted x t
  end.

Definition sort_by (l : list A) : list A := fold_right insert_sorted [] l.

End InsertionSort.

(** [Series.unique()]: distinct values in order of first appearance. *)
Fixpoint unique (l : list string) : list string :=
  match l with
  | [] => []
  | x :: t => x :: filter (fun y => negb (String.eqb x y)) (unique t)
  end.

(** ** A reading of timestamps for the script's own format

    [parse_timestamp] reads back exactly the texts [strftime] writes; it
    is the instance of [pd.to_datetime] used on concrete ledgers below. *)

Definition digit_value (c : ascii) : option nat :=
  let n := nat_of_ascii c in
  if Nat.leb 48 n && Nat.leb n 57 then Some (n - 48) else None.

Fixpoint digits_value (acc : nat) (l : list ascii) : option nat :=
  match l with
  | [] => Some acc
  | c :: t => match digit_value c with
              | Some v => digits_value (10 * acc + v) t
              | None => None
              end
  end.

Definition number_of (s : string) : option nat :=
  match list_ascii_of_string s with
  | [] => None
  | l => digits_value 0 l
  end.

Definition parse_timestamp (s : string) : option datetime :=
  if Nat.eqb (String.length s) 16
     && String.eqb (substring 4 1 s) "-" && String.eqb (substring 7 1 s) "-"
     && String.eqb (substring 10 1 s) " " && String.eqb (substring 13 1 s) ":"
  then
    match number_of (substring 0 4 s), number_of (substring 5 2 s),
          number_of (substring 8 2 s), number_of (substring 11 2 s),
          number_of (substring 14 2 s) with
    | Some y, Some mo, Some d, Some h, Some mi =>
        if Nat.leb 1 mo && Nat.leb mo 12 && Nat.leb 1 d && Nat.leb d 31
           && Nat.leb h 23 && Nat.leb mi 59
        then Some (mkDatetime y mo d h mi 0) else None
    | _, _, _, _, _ => None
    end
  else None.

Definition to_datetime_minutes (col : list cell) (i : nat) : option datetime :=
  match nth i col CMissing with
  | CText s => parse_timestamp s
  | CTimestamp d => Some d
  | _ => None
  end.

(** Plain decimal numerals, the instance of pandas' numeric reading of text
    used on concrete ledgers below. *)
Definition numeric_digits (s : string) : option Q :=
  option_map (fun n => inject_Z (Z.of_nat n)) (number_of s).

(** ** The script *)

Section Tracker.

(** pandas' reading of a text cell as a number, used by [read_excel] when it
    infers the type of a column; [None] for text that is not numeric. *)
Variable numeric_text : string -> option Q.

(** [pd.to_datetime(col, errors="coerce")], position by position:
    [to_datetime col i] is element [i] of the result, [None] for NaT. *)
Variable to_datetime : list cell -> nat -> option datetime.

(** *** Reading: [pd.read_excel(EXCEL_FILE, sheet_name=SHEET_NAME)] *)

(** The texts pandas reads as a missing value by default. *)
Definition na_values : list string :=
  [""; "#N/A"; "#N/A N/A"; "#NA"; "-1.#IND"; "-1.#QNAN"; "-NaN"; "-nan";
   "1.#IND"; "1.#QNAN"; "<NA>"; "N/A"; "NA"; "NULL"; "NaN"; "None"; "n/a";
   "nan"; "null"].

Definition na_token (s : string) : bool := existsb (String.eqb s) na_values.

Definition true_token (s : string) : bool :=
  existsb (String.eqb s) ["True"; "TRUE"; "true"].

Definition false_token (s : string) : bool :=
  existsb (String.eqb s) ["False"; "FALSE"; "false"].

(** The type pandas settles on for a column of the sheet. *)
Inductive dtype := Numeric | Boolean | Object.

Definition numeric_like (c : cell) : bool :=
  match c with
  | CNumber _ | CMissing => true
  | CText s => na_token s
               || match numeric_text s with Some _ => true | None => false end
  | CBool _ | CTimestamp _ => false
  end.

Definition sanitize (c : cell) : cell :=
  match c with
  | CText s => if na_token s then CMissing else c
  | _ => c
  end.

Definition bool_like (c : cell) : bool :=
  match c with
  | CBool _ | CMissing => true
  | CText s => true_token s || false_token s
  | CNumber _ | CTimestamp _ => false
  end.

(** A column is numeric when every cell reads as a number or as missing;
    failing that it is boolean when every cell left after the missing-value
    filter is a boolean or boolean text; otherwise it keeps its objects.
    (A column that mixes boolean cells with numbers is not modelled: it is
    kept as objects here.) *)
Definition infer_dtype (col : list cell) : dtype :=
  if forallb numeric_like col then Numeric
  else if forallb bool_like (map sanitize col) then Boolean
  else Object.

Definition convert (t : dtype) (c : cell) : cell :=
  match t, sanitize c with
  | Numeric, CText s => match numeric_text s with
                        | Some q => CNumber q
                        | None => CMissing
                        end
  | Boolean, CText s => CBool (true_token s)
  | _, c' => c'
  end.

(** The frame of a sheet: the first row names the columns, every other row
    is a record, short rows are blank on the right, and the index is
    0, 1, 2, ...  (Sheets whose header repeats a name or has a blank are not
    modelled.) *)
Definition parse_sheet (sh : sheet) : DataFrame :=
  let width := List.length (header sh) in
  let dtypes :=
    map (fun j => infer_dtype (map (fun r => nth j r CMissing) (body sh)))
        (seq 0 width) in
  mkFrame (header sh)
    (combine (seq 0 (List.length (body sh)))
       (map (fun r => map (fun jt => convert (snd jt) (nth (fst jt) r CMissing))
                          (combine (seq 0 width) dtypes))
            (body sh))).

Definition read_excel (f : excel_file) : result DataFrame :=
  match f with
  | Missing => Raise "FileNotFoundError"
  | Unreadable => Raise "BadZipFile"
  | Workbook sheets =>
      match find_sheet SHEET_NAME sheets with
      | Some sh => Ok (parse_sheet sh)
      | None => Raise "ValueError"
      end
  end.

(** *** Helper functions of the script *)

Definition load_data (f : excel_file) : DataFrame :=
  match read_excel f with
  | Ok df => df
  | Raise _ => mkFrame COLUMNS []
  end.

(** The stages of [save_data]: [pd.ExcelWriter(EXCEL_FILE, mode="w")] opens
    the path for writing, which empties it; [to_excel] fills the workbook
    in memory; leaving the [with] block writes the workbook and closes. *)
Inductive save_stage := NotStarted | WriterOpened | SheetFilled | WriterClosed.

(** The path after a save that ran up to the given stage and no further. *)
Definition save_data_upto (stage : save_stage) (df : DataFrame)
  (f : excel_file) : excel_file :=
  match stage with
  | NotStarted => f
  | WriterOpened | SheetFilled => Unreadable
  | WriterClosed => Workbook [(SHEET_NAME, to_excel df)]
  end.

Definition save_data (df : DataFrame) (f : excel_file) : excel_file :=
  save_data_upto WriterClosed df f.

(** Lines 32 to 35: an absent file is created with the header only. *)
Definition initialize (f : excel_file) : excel_file :=
  match f with
  | Missing => save_data (mkFrame COLUMNS []) f
  | _ => f
  end.

(** *** Tab 1: add and remove *)

Definition new_entry (now : datetime) (c : category) (amount : Q)
  (t : txn_type) (note : string) : list (string * cell) :=
  [("Date", CText (strftime now));
   ("Category", CText (category_name c));
   ("Amount (INR)", CNumber amount);
   ("Type", CText (txn_type_name t));
   ("Note", CText note)].

Fixpoint lookup (name : string) (e : list (string * cell)) : cell :=
  match e with
  | [] => CMissing
  | (n, c) :: t => if String.eqb n name then c else lookup name t
  end.

(** [pd.concat([df, pd.DataFrame([e])], ignore_index=True)]: the columns of
    [df] followed by the keys of [e] it does not have, cells that a row has
    no value for are missing, and the index is renumbered. *)
Definition concat_row (df : DataFrame) (e : list (string * cell)) : DataFrame :=
  let extra :=
    filter (fun n => negb (existsb (String.eqb n) (columns df))) (map fst e) in
  let cols := columns df ++ extra in
  mkFrame cols
    (combine (seq 0 (S (List.length (rows df))))
       (map (fun r => snd r ++ map (fun _ => CMissing) extra) (rows df)
          ++ [map (fun n => lookup n e) cols])).

Definition add_entry (now : datetime) (c : category) (amount : Q)
  (t : txn_type) (note : string) (f : excel_file) : excel_file * notice :=
  if Qle_bool amount 0 then (f, StError "Amount must be greater than ₹0")
  else
    let df := load_data f in
    let df := concat_row df (new_entry now c amount t note) in
    (save_data df f, Added t c amount).

Definition remove_last (f : excel_file) : excel_file * notice :=
  let df := load_data f in
  if negb (empty df) then
    let removed := last (map snd (rows df)) [] in
    let df := mkFrame (columns df) (removelast (rows df)) in
    (save_data df f, Removed removed)
  else (f, StInfo "No entries to remove.").

(** [df.tail(n)]: the last [n] rows, under their own labels. *)
Definition tail (n : nat) (df : DataFrame) : DataFrame :=
  mkFrame (columns df) (skipn (List.length (rows df) - n) (rows df)).

(** Lines 109 to 114: the frame shown under "Recent Entries". *)
Definition recent_entries (f : excel_file) : DataFrame :=
  let recent_df := tail 10 (load_data f) in
  if negb (empty recent_df) then recent_df else mkFrame COLUMNS [].

(** *** Tab 2: summary and management *)

Definition date_cell (o : option datetime) : cell :=
  match o with Some d => CTimestamp d | None => CMissing end.

(** [astype(str)] on the periods: a missing period is rendered as the text
    [NaT] (pandas before 3.0, where casting to [str] formats every element,
    the missing ones included). *)
Definition month_cell (o : option datetime) : cell :=
  match o with Some d => CText (month_key d) | None => CText "NaT" end.

(** Lines 126 and 127, which assign into the loaded frame itself. *)
Definition date_processing (data : DataFrame) : result DataFrame :=
  match column "Date" data with
  | None => Raise "KeyError"
  | Some dates =>
      let parsed := map (to_datetime dates) (seq 0 (List.length dates)) in
      let data := set_column "Date" (map date_cell parsed) data in
      Ok (set_column "Month" (map month_cell parsed) data)
  end.

Definition dropna (l : list cell) : list cell :=
  filter (fun c => match c with CMissing => false | _ => true end) l.

Definition texts (l : list cell) : list string :=
  flat_map (fun c => match c with CText s => [s] | _ => [] end) l.

(** The choices of the month box:
    [sorted(data["Month"].dropna().unique(), reverse=True)]. *)
Definition month_options (data : DataFrame) : list string :=
  match column "Month" data with
  | Some c => sort_by (fun a b => String.leb b a) (unique (texts (dropna c)))
  | None => []
  end.

(** [series == s] on one cell. *)
Definition equals (s : string) (c : cell) : bool :=
  match c with CText t => String.eqb t s | _ => false end.

(** [df[mask]] for a mask computed from one column. *)
Definition where_ (name : string) (p : cell -> bool) (df : DataFrame)
  : result DataFrame :=
  match index_of name (columns df) with
  | Some j =>
      Ok (mkFrame (columns df)
            (filter (fun r => p (nth j (snd r) CMissing)) (rows df)))
  | None => Raise "KeyError"
  end.

Definition monthly_data (data : DataFrame) (selected_month : string)
  : result DataFrame :=
  where_ "Month" (equals selected_month) data.

Inductive show := ExpensesOnly | SavingsOnly | All.

Definition filtered (sh : show) (monthly : DataFrame) : result DataFrame :=
  match sh with
  | ExpensesOnly => where_ "Type" (equals "Expense") monthly
  | SavingsOnly => where_ "Type" (fun c => negb (equals "Expense" c)) monthly
  | All => Ok monthly
  end.

(** The category and the amount of every row, for a frame whose categories
    are texts and whose amounts are numbers, either of them possibly
    missing.  Cells of another kind in these columns are outside the data
    model and are reported as a TypeError. *)
Fixpoint typed (cats amts : list cell)
  : result (list (option string * option Q)) :=
  match cats, amts with
  | c :: cs, a :: az =>
      match typed cs az with
      | Raise e => Raise e
      | Ok rest =>
          match c, a with
          | CText s, CNumber q => Ok ((Some s, Some q) :: rest)
          | CText s, CMissing => Ok ((Some s, None) :: rest)
          | CMissing, CNumber q => Ok ((None, Some q) :: rest)
          | CMissing, CMissing => Ok ((None, None) :: rest)
          | _, _ => Raise "TypeError"
          end
      end
  | _, _ => Ok []
  end.

(** The sum of one group; a missing amount is skipped. *)
Definition group_sum (k : string) (trs : list (option string * option Q)) : Q :=
  fold_left Qplus
    (flat_map (fun tr => match tr with
                         | (Some s, Some q) => if String.eqb s k then [q] else []
                         | _ => []
                         end) trs)
    0%Q.

(** [filtered.groupby("Category")["Amount (INR)"].sum()
      .sort_values(ascending=False)]: groups in the order of their keys,
    rows without a category left out, then ordered by total. *)
Definition grouped (view : DataFrame) : result (list (string * Q)) :=
  match column "Category" view, column "Amount (INR)" view with
  | Some cats, Some amts =>
      match typed cats amts with
      | Raise e => Raise e
      | Ok trs =>
          let keys :=
            sort_by String.leb
              (unique (flat_map (fun tr => match fst tr with
                                           | Some s => [s]
                                           | None => []
                                           end) trs)) in
          Ok (sort_by (fun a b => Qle_bool (snd b) (snd a))
                (map (fun k => (k, group_sum k trs)) keys))
      end
  | _, _ => Raise "KeyError"
  end.

(** The values offered by the multiselect: [list(filtered.index)]. *)
Definition options (view : DataFrame) : list nat := map fst (rows view).

(** [data.drop(index=labels)]: every label has to be in the index. *)
Definition drop (labels : list nat) (df : DataFrame) : result DataFrame :=
  if forallb (fun l => existsb (Nat.eqb l) (map fst (rows df))) labels
  then Ok (mkFrame (columns df)
             (filter (fun r => negb (existsb (Nat.eqb (fst r)) labels))
                     (rows df)))
  else Raise "KeyError".

Definition reset_index (df : DataFrame) : DataFrame :=
  mkFrame (columns df)
    (combine (seq 0 (List.length (rows df))) (map snd (rows df))).

(** Lines 182 to 186; the button is disabled while nothing is selected. *)
Definition delete_selected_rows (data : DataFrame) (selected_rows : list nat)
  (f : excel_file) : excel_file * notice :=
  match selected_rows with
  | [] => (f, Quiet)
  | _ :: _ =>
      match drop selected_rows data with
      | Raise e => (f, Uncaught e)
      | Ok df_all =>
          (save_data (reset_index df_all) f,
           Deleted (List.length selected_rows))
      end
  end.

(** The frame shown in tab 2 for a month and a type filter. *)
Definition view_of (data : DataFrame) (selected_month : string) (sh : show)
  : result DataFrame :=
  match monthly_data data selected_month with
  | Raise e => Raise e
  | Ok monthly => filtered sh monthly
  end.

(** One run of tab 2 with "Delete Selected Rows" pressed. *)
Definition manage_entries (selected_month : string) (sh : show)
  (selected_rows : list nat) (f : excel_file) : excel_file * notice :=
  let data := load_data f in
  if empty data
  then (f, StInfo "No entries yet. Start adding your expenses or savings!")
  else
    match date_processing data with
    | Raise e => (f, Uncaught e)
    | Ok data =>
        match view_of data selected_month sh with
        | Raise e => (f, Uncaught e)
        | Ok view =>
            match (if empty view then Ok [] else grouped view) with
            | Raise e => (f, Uncaught e)
            | Ok _ => delete_selected_rows data selected_rows f
            end
        end
    end.

End Tracker.

(** ** Vocabulary of the statements *)

(** The ledger that [load_data] falls back to. *)
Definition empty_ledger : DataFrame := mkFrame COLUMNS [].

(** The cell of a row under a column name. *)
Definition field (df : DataFrame) (name : string) (r : nat * list cell) : cell :=
  match index_of name (columns df) with
  | Some j => nth j (snd r) CMissing
  | None => CMissing
  end.

(** Every row has one cell per column. *)
Definition rectangular (df : DataFrame) : Prop :=
  Forall (fun r => List.length (snd r) = List.length (columns df)) (rows df).

(** One press of "Add Entry": the clock and the four inputs. *)
Record request := mkRequest {
  at_time : datetime;
  in_category : category;
  of_amount : Q;
  of_type : txn_type;
  with_note : string
}.

Definition append (numeric_text : string -> option Q) (f : excel_file)
  (e : request) : excel_file :=
  fst (add_entry numeric_text (at_time e) (in_category e) (of_amount e)
         (of_type e) (with_note e) f).

Definition append_all (numeric_text : string -> option Q) (es : list request)
  (f : excel_file) : excel_file :=
  fold_left (append numeric_text) es f.


(** The row of a request with the note exactly as it was typed. *)
Definition given_row (e : request) : list cell :=
  [CText (strftime (at_time e)); CText (category_name (in_category e));
   CNumber (of_amount e); CText (txn_type_name (of_type e));
   CText (with_note e)].








(** ** Sample ledgers *)

Definition jan5 : datetime := mkDatetime 2024 1 5 10 30 0.
Definition mar7 : datetime := mkDatetime 2024 3 7 9 5 0.

Definition lunch : request := mkRequest jan5 Food (250 # 1) Expense "".
Definition rent : request := mkRequest mar7 Housing (1000 # 1) Expense "rent".
Definition salary : request :=
  mkRequest mar7 Miscellaneous (5000 # 1) IncomeSavings "salary".
Definition bus : request := mkRequest mar7 Transportation (40 # 1) Expense "bus".
Definition film : request := mkRequest mar7 Entertainment (300 # 1) Expense "film".

Definition fresh : excel_file := initialize Missing.

Definition one_entry : excel_file := append_all numeric_digits [lunch] fresh.

Definition gym : request := mkRequest mar7 PersonalCare (800 # 1) Expense "gym".

Definition five_entries : excel_file :=
  append_all numeric_digits [rent; salary; bus; film; gym] fresh.

(** A sheet edited by hand: the first date is not a date and the second
    row has a type the form does not offer. *)
Definition edited : excel_file :=
  Workbook
    [(SHEET_NAME,
      mkSheet COLUMNS
        [[CText "last week"; CText "Food"; CNumber (90 # 1); CText "Expense";
          CMissing];
         [CText "2024-03-07 09:05"; CText "Housing"; CNumber (700 # 1);
          CText "Transfer"; CMissing];
         [CText "2024-03-09 18:40"; CText "Food"; CNumber (120 # 1);
          CText "Expense"; CMissing];
         [CText "2024-03-11 08:00"; CText "Food"; CNumber (500 # 1);
          CText "Income/Savings"; CMissing]])].

(** Three food expenses and one food income in March 2024. *)
Definition food_march : excel_file :=
  append_all numeric_digits
    [mkRequest mar7 Food (100 # 1) Expense "a";
     mkRequest mar7 Food (200 # 1) Expense "b";
     mkRequest mar7 Food (50 # 1) Expense "c";
     mkRequest mar7 Food (500 # 1) IncomeSavings "d"]
    fresh.

(** Twelve entries, one on each of the first twelve days of March 2024. *)
Definition twelve_entries : excel_file :=
  append_all numeric_digits
    (map (fun d => mkRequest (mkDatetime 2024 3 d 9 0 0) Food (10 # 1)
                     Expense "tea")
         (seq 1 12))
    fresh.

Definition jan20 : datetime := mkDatetime 2024 1 20 18 45 0.

(** The frame of tab 2 for a file, with the reading of dates above. *)
Definition tab2_data (f : excel_file) : DataFrame :=
  match date_processing to_datetime_minutes (load_data numeric_digits f) with
  | Ok data => data
  | Raise _ => empty_ledger
  end.

Definition tab2_view (f : excel_file) (selected_month : string) (sh : show)
  : DataFrame :=
  match view_of (tab2_data f) selected_month sh with
  | Ok view => view
  | Raise _ => empty_ledger
  end.

(** The file after "Delete Selected Rows" on rows 1 and 3 of five. *)
Definition after_delete : excel_file :=
  fst (manage_entries numeric_digits to_datetime_minutes "2024-03" All [1; 3]
         five_entries).

(** ** Properties *)

(** *** Lists *)

Lemma fst_combine (A B : Type) (l1 : list A) (l2 : list B) :
  List.length l1 = List.length l2 -> map fst (combine l1 l2) = l1.
Proof.
  revert l2; induction l1 as [|a l1 IH]; intros [|b l2] H; simpl in *;
    try discriminate; auto.
  f_equal; apply IH; lia.
Qed.

Lemma snd_combine (A B : Type) (l1 : list A) (l2 : list B) :
  List.length l1 = List.length l2 -> map snd (combine l1 l2) = l2.
Proof.
  revert l2; induction l1 as [|a l1 IH]; intros [|b l2] H; simpl in *;
    try discriminate; auto.
  f_equal; apply IH; lia.
Qed.

Lemma index_of_bound (name : string) (cols : list string) (j : nat) :
  index_of name cols = Some j -> j < List.length cols /\ nth j cols "" = name.
Proof.
  revert j; induction cols as [|c cs IH]; simpl; intros j H; [discriminate|].
  destruct (String.eqb_spec c name) as [->|_].
  - inversion H; subst; simpl; split; [lia|reflexivity].
  - destruct (index_of name cs) as [k|]; [|discriminate].
    inversion H; subst; simpl. destruct (IH k eq_refl); split; [lia|assumption].
Qed.

Lemma index_of_In (name : string) (cols : list string) :
  In name cols -> exists j, index_of name cols = Some j.
Proof.
  induction cols as [|c cs IH]; simpl; intros H; [contradiction|].
  destruct (String.eqb_spec c name) as [->|Hne]; [eauto|].
  destruct H as [H|H]; [contradiction|].
  destruct (IH H) as [j ->]; simpl; eauto.
Qed.

Lemma index_of_None (name : string) (cols : list string) :
  index_of name cols = None -> ~ In name cols.
Proof.
  induction cols as [|c cs IH]; simpl; intros H; [tauto|].
  destruct (String.eqb_spec c name) as [->|Hne]; [discriminate|].
  destruct (index_of name cs); [discriminate|].
  intros [E|E]; [contradiction|]. now apply IH.
Qed.

Lemma index_of_snoc (name : string) (cols : list string) :
  index_of name cols = None ->
  index_of name (cols ++ [name]) = Some (List.length cols).
Proof.
  induction cols as [|c cs IH]; simpl; intros H.
  - now rewrite String.eqb_refl.
  - destruct (String.eqb c name); [discriminate|].
    destruct (index_of name cs); [discriminate|].
    now rewrite IH.
Qed.

Lemma index_of_app (name : string) (cols more : list string) (j : nat) :
  index_of name cols = Some j -> index_of name (cols ++ more) = Some j.
Proof.
  revert j; induction cols as [|c cs IH]; simpl; intros j H; [discriminate|].
  destruct (String.eqb c name); [assumption|].
  destruct (index_of name cs) as [k|]; [|discriminate].
  now rewrite (IH k eq_refl).
Qed.

Lemma replace_nth_length (A : Type) (j : nat) (x : A) (l : list A) :
  List.length (replace_nth j x l) = List.length l.
Proof.
  revert j; induction l as [|a l IH]; intros [|j]; simpl; auto.
Qed.

Lemma nth_replace_nth (A : Type) (j : nat) (x d : A) (l : list A) :
  j < List.length l -> nth j (replace_nth j x l) d = x.
Proof.
  revert j; induction l as [|a l IH]; intros [|j]; simpl; intros H;
    try lia; auto.
  apply IH; lia.
Qed.

Lemma nth_replace_nth_other (A : Type) (j k : nat) (x d : A) (l : list A) :
  j <> k -> nth k (replace_nth j x l) d = nth k l d.
Proof.
  revert j k; induction l as [|a l IH]; intros [|j] [|k]; simpl; intros H;
    auto; try lia.
Qed.

Lemma filter_filter (A : Type) (p q : A -> bool) (l : list A) :
  filter q (filter p l) = filter (fun x => p x && q x) l.
Proof.
  induction l as [|a l IH]; simpl; auto.
  destruct (p a); simpl; [destruct (q a)|]; now rewrite IH.
Qed.


Lemma equals_true (s : string) (c : cell) : equals s c = true <-> c = CText s.
Proof.
  destruct c; simpl; split; try discriminate.
  - intros H; apply String.eqb_eq in H; now subst.
  - intros H; inversion H; apply String.eqb_refl.
Qed.

Lemma index_of_snoc_other (name other : string) (cols : list string) :
  name <> other -> index_of other cols = None ->
  index_of other (cols ++ [name]) = None.
Proof.
  intros Hne. induction cols as [|c cs IH]; simpl; intros H.
  - destruct (String.eqb_spec name other); [contradiction|reflexivity].
  - destruct (String.eqb c other); [discriminate|].
    destruct (index_of other cs); [discriminate|]. now rewrite IH.
Qed.

Lemma insert_sorted_In (A : Type) (le : A -> A -> bool) (x y : A) (l : list A) :
  In y (insert_sorted le x l) <-> y = x \/ In y l.
Proof.
  induction l as [|a l IH]; simpl.
  - intuition.
  - destruct (le x a); simpl; [intuition|]. rewrite IH. intuition.
Qed.

Lemma sort_by_In (A : Type) (le : A -> A -> bool) (y : A) (l : list A) :
  In y (sort_by le l) <-> In y l.
Proof.
  induction l as [|a l IH]; simpl; [tauto|].
  rewrite insert_sorted_In, IH. intuition.
Qed.

Lemma unique_In (y : string) (l : list string) : In y (unique l) <-> In y l.
Proof.
  induction l as [|a l IH]; simpl; [tauto|].
  rewrite filter_In, IH, negb_true_iff, String.eqb_neq.
  destruct (string_dec a y); intuition.
Qed.

Lemma existsb_seq (l n : nat) :
  existsb (Nat.eqb l) (seq 0 n) = true <-> l < n.
Proof.
  rewrite existsb_exists. split.
  - intros [x [Hin E]]. apply Nat.eqb_eq in E. subst.
    apply in_seq in Hin. lia.
  - intros H. exists l. split; [apply in_seq; lia|apply Nat.eqb_refl].
Qed.

Lemma existsb_eqb_In (x : nat) (l : list nat) :
  existsb (Nat.eqb x) l = true <-> In x l.
Proof.
  rewrite existsb_exists. split.
  - intros [y [Hin E]]. apply Nat.eqb_eq in E. now subst.
  - intros H. exists x. split; [assumption|apply Nat.eqb_refl].
Qed.

Lemma unique_NoDup (l : list string) : NoDup (unique l).
Proof.
  induction l as [|a l IH]; simpl; constructor.
  - intros H. apply filter_In in H. destruct H as [_ H].
    now rewrite String.eqb_refl in H.
  - now apply NoDup_filter.
Qed.

Lemma insert_sorted_perm (A : Type) (le : A -> A -> bool) (x : A) (l : list A) :
  Permutation (x :: l) (insert_sorted le x l).
Proof.
  induction l as [|a l IH]; simpl; [reflexivity|].
  destruct (le x a); [reflexivity|].
  rewrite perm_swap. now apply perm_skip.
Qed.

Lemma sort_by_perm (A : Type) (le : A -> A -> bool) (l : list A) :
  Permutation l (sort_by le l).
Proof.
  induction l as [|a l IH]; simpl; [reflexivity|].
  rewrite <- insert_sorted_perm. now apply perm_skip.
Qed.


Section SortFacts.

Variable A : Type.
Variable le : A -> A -> bool.
Hypothesis le_total : forall a b, le a b = true \/ le b a = true.
Hypothesis le_trans :
  forall a b c, le a b = true -> le b c = true -> le a c = true.

Lemma insert_sorted_ordered (x : A) (l : list A) :
  StronglySorted (fun a b => le a b = true) l ->
  StronglySorted (fun a b => le a b = true) (insert_sorted le x l).
Proof.
  induction 1 as [|a l Hs IH Hall]; simpl.
  - repeat constructor.
  - destruct (le x a) eqn:E.
    + constructor; [now constructor|]. constructor; [assumption|].
      apply Forall_forall. intros y Hy. rewrite Forall_forall in Hall.
      eapply le_trans; eauto.
    + constructor; [assumption|].
      apply Forall_forall. intros y Hy. apply insert_sorted_In in Hy.
      destruct Hy as [->|Hy].
      * destruct (le_total x a); congruence.
      * rewrite Forall_forall in Hall. auto.
Qed.

Lemma sort_by_ordered (l : list A) :
  StronglySorted (fun a b => le a b = true) (sort_by le l).
Proof.
  induction l as [|a l IH]; simpl; [constructor|].
  now apply insert_sorted_ordered.
Qed.

End SortFacts.





(** *** The texts the script writes *)






Section Properties.

Variable numeric_text : string -> option Q.
Variable to_datetime : list cell -> nat -> option datetime.

(** *** Loading *)

Lemma parse_sheet_labels (sh : sheet) :
  map fst (rows (parse_sheet numeric_text sh)) = seq 0 (List.length (body sh)).
Proof.
  unfold parse_sheet; simpl. apply fst_combine.
  now rewrite length_seq, length_map.
Qed.

Lemma parse_sheet_rectangular (sh : sheet) :
  rectangular (parse_sheet numeric_text sh).
Proof.
  unfold rectangular, parse_sheet; simpl.
  apply Forall_forall; intros [i r] Hin.
  apply in_combine_r in Hin. apply in_map_iff in Hin.
  destruct Hin as [r0 [<- _]]; simpl.
  now rewrite length_map, length_combine, length_seq, length_map, length_seq,
    Nat.min_id.
Qed.

Lemma load_data_cases (f : excel_file) :
  load_data numeric_text f = empty_ledger \/ exists sh, load_data numeric_text f = parse_sheet numeric_text sh.
Proof.
  unfold load_data, read_excel.
  destruct f as [| |sheets]; auto.
  destruct (find_sheet SHEET_NAME sheets); eauto.
Qed.

Lemma load_data_labels (f : excel_file) :
  map fst (rows (load_data numeric_text f)) = seq 0 (List.length (rows (load_data numeric_text f))).
Proof.
  destruct (load_data_cases f) as [->|[sh ->]]; [reflexivity|].
  rewrite parse_sheet_labels. f_equal.
  rewrite <- (length_map fst), parse_sheet_labels. now rewrite length_seq.
Qed.

Lemma load_data_rectangular (f : excel_file) : rectangular (load_data numeric_text f).
Proof.
  destruct (load_data_cases f) as [->|[sh ->]].
  - constructor.
  - apply parse_sheet_rectangular.
Qed.

(** C8.  When the workbook cannot be read (the file is absent, is not a
    workbook, or has no sheet of the expected name), [load_data] raises
    nothing and returns the ledger with the five columns and no row, which
    is also what it returns for the file the script has just created. *)
Theorem load_data_fail_soft (f : excel_file) :
  (exists e, read_excel numeric_text f = Raise e) ->
  load_data numeric_text f = empty_ledger
  /\ empty (load_data numeric_text f) = true
  /\ load_data numeric_text f = load_data numeric_text (initialize Missing).
Proof.
  intros [e H]. unfold load_data at 1 2 3. rewrite H. repeat split.
Qed.

(** C9.  On an empty ledger "Remove Last Entry" saves nothing: the file is
    left as it is and the notice is the informational "No entries to
    remove." *)
Theorem remove_last_empty (f : excel_file) :
  empty (load_data numeric_text f) = true ->
  remove_last numeric_text f = (f, StInfo "No entries to remove.").
Proof.
  intros H. unfold remove_last. now rewrite H.
Qed.


(** *** Frames *)

Lemma set_column_columns (name : string) (vals : list cell) (df : DataFrame) :
  columns (set_column name vals df) =
    match index_of name (columns df) with
    | Some _ => columns df
    | None => columns df ++ [name]
    end.
Proof. unfold set_column. now destruct (index_of name (columns df)). Qed.

Lemma set_column_labels (name : string) (vals : list cell) (df : DataFrame) :
  List.length vals = List.length (rows df) ->
  map fst (rows (set_column name vals df)) = map fst (rows df).
Proof.
  intros H. unfold set_column.
  destruct (index_of name (columns df)); simpl; rewrite map_map; simpl;
    rewrite <- (map_map fst fst), fst_combine by auto; reflexivity.
Qed.

Lemma set_column_rectangular (name : string) (vals : list cell)
  (df : DataFrame) :
  rectangular df -> rectangular (set_column name vals df).
Proof.
  unfold rectangular, set_column. intros H.
  destruct (index_of name (columns df)); simpl; apply Forall_forall;
    intros r Hin; apply in_map_iff in Hin; destruct Hin as [[r0 v] [<- Hin]];
    apply in_combine_l in Hin; rewrite Forall_forall in H;
    specialize (H _ Hin); simpl.
  - now rewrite replace_nth_length.
  - rewrite !length_app; simpl; lia.
Qed.

Lemma column_set_column (name : string) (vals : list cell) (df : DataFrame) :
  rectangular df -> List.length vals = List.length (rows df) ->
  column name (set_column name vals df) = Some vals.
Proof.
  intros Hrect Hlen. unfold column. rewrite set_column_columns.
  unfold set_column.
  destruct (index_of name (columns df)) as [j|] eqn:E.
  - rewrite E. simpl. f_equal. rewrite map_map. simpl.
    rewrite <- (snd_combine (rows df) vals) at 2 by auto.
    apply map_ext_in. intros [r v] Hin. simpl.
    apply in_combine_l in Hin. unfold rectangular in Hrect.
    rewrite Forall_forall in Hrect. specialize (Hrect _ Hin).
    apply nth_replace_nth. destruct (index_of_bound _ _ E). lia.
  - rewrite (index_of_snoc _ _ E). simpl. f_equal. rewrite map_map. simpl.
    rewrite <- (snd_combine (rows df) vals) at 2 by auto.
    apply map_ext_in. intros [r v] Hin. simpl.
    apply in_combine_l in Hin. unfold rectangular in Hrect.
    rewrite Forall_forall in Hrect. specialize (Hrect _ Hin).
    rewrite <- Hrect. now rewrite nth_middle.
Qed.

Lemma column_length (name : string) (df : DataFrame) (c : list cell) :
  column name df = Some c -> List.length c = List.length (rows df).
Proof.
  unfold column. destruct (index_of name (columns df)); [|discriminate].
  intros H; inversion H. apply length_map.
Qed.

(** C2.  With "Savings Only" the view of a month holds, in ledger order,
    exactly the rows of that month whose type is anything but the text
    [Expense]. *)
Theorem savings_only_is_not_expense (data : DataFrame) (m : string) :
  In "Month" (columns data) -> In "Type" (columns data) ->
  exists view,
    view_of data m SavingsOnly = Ok view
    /\ rows view =
         filter (fun r => equals m (field data "Month" r)
                          && negb (equals "Expense" (field data "Type" r)))
                (rows data)
    /\ forall r, In r (rows view) <->
                 In r (rows data)
                 /\ field data "Month" r = CText m
                 /\ field data "Type" r <> CText "Expense".
Proof.
  intros Hm Ht.
  destruct (index_of_In _ _ Hm) as [j Ej], (index_of_In _ _ Ht) as [k Ek].
  unfold view_of, monthly_data, where_, filtered, where_, field.
  rewrite Ej; simpl; rewrite Ek.
  eexists; split; [reflexivity|]. simpl. rewrite filter_filter.
  split; [reflexivity|].
  intros r. rewrite filter_In, andb_true_iff, negb_true_iff, equals_true.
  split; intros [H1 [H2 H3]]; repeat split; auto.
  - intros E. apply equals_true in E. congruence.
  - destruct (equals "Expense" (nth k (snd r) CMissing)) eqn:E; auto.
    apply equals_true in E. contradiction.
Qed.

Lemma column_set_column_other (name other : string) (vals : list cell)
  (df : DataFrame) :
  name <> other -> rectangular df ->
  List.length vals = List.length (rows df) ->
  column other (set_column name vals df) = column other df.
Proof.
  intros Hne Hrect Hlen. unfold column. rewrite set_column_columns.
  unfold set_column. unfold rectangular in Hrect.
  rewrite Forall_forall in Hrect.
  destruct (index_of name (columns df)) as [j|] eqn:E.
  - destruct (index_of other (columns df)) as [k|] eqn:Ek; [|reflexivity].
    simpl. f_equal. rewrite map_map. simpl.
    rewrite <- (fst_combine (rows df) vals) at 2 by auto.
    rewrite map_map. apply map_ext_in. intros [r v] Hin. simpl.
    apply nth_replace_nth_other. intros ->.
    destruct (index_of_bound _ _ E), (index_of_bound _ _ Ek). congruence.
  - destruct (index_of other (columns df)) as [k|] eqn:Ek.
    + rewrite (index_of_app _ _ [name] Ek). simpl. f_equal.
      rewrite map_map. simpl.
      rewrite <- (fst_combine (rows df) vals) at 2 by auto.
      rewrite map_map. apply map_ext_in. intros [r v] Hin. simpl.
      apply in_combine_l in Hin. specialize (Hrect _ Hin).
      apply app_nth1. destruct (index_of_bound _ _ Ek). lia.
    + now rewrite (index_of_snoc_other _ Hne Ek).
Qed.

(** What lines 126 and 127 leave in [data]. *)
Lemma date_processing_spec (data : DataFrame) (dates : list cell) :
  rectangular data -> column "Date" data = Some dates ->
  exists data',
    date_processing to_datetime data = Ok data'
    /\ map fst (rows data') = map fst (rows data)
    /\ rectangular data'
    /\ columns data' =
         match index_of "Month" (columns data) with
         | Some _ => columns data
         | None => columns data ++ ["Month"]
         end
    /\ column "Date" data' =
         Some (map (fun i => date_cell (to_datetime dates i))
                   (seq 0 (List.length dates)))
    /\ column "Month" data' =
         Some (map (fun i => month_cell (to_datetime dates i))
                   (seq 0 (List.length dates)))
    /\ forall name, name <> "Date" -> name <> "Month" ->
         column name data' = column name data.
Proof.
  intros Hrect Hd. unfold date_processing. rewrite Hd.
  pose proof (column_length _ _ Hd) as Hlen.
  set (parsed := map (to_datetime dates) (seq 0 (List.length dates))).
  assert (Hp : List.length parsed = List.length (rows data))
    by (unfold parsed; now rewrite length_map, length_seq).
  set (data1 := set_column "Date" (map date_cell parsed) data).
  assert (Hr1 : rectangular data1) by now apply set_column_rectangular.
  assert (Hl1 : map fst (rows data1) = map fst (rows data))
    by (apply set_column_labels; now rewrite length_map).
  assert (Hn1 : List.length (rows data1) = List.length (rows data))
    by (rewrite <- (length_map fst), Hl1; apply length_map).
  assert (Hc1 : columns data1 = columns data).
  { unfold data1. rewrite set_column_columns. unfold column in Hd.
    destruct (index_of "Date" (columns data)); [reflexivity|discriminate]. }
  eexists; split; [reflexivity|]. repeat split.
  - rewrite set_column_labels by (rewrite length_map; congruence). exact Hl1.
  - now apply set_column_rectangular.
  - rewrite set_column_columns, Hc1. reflexivity.
  - rewrite column_set_column_other;
      [|discriminate|assumption|rewrite length_map; congruence].
    unfold data1. rewrite column_set_column;
      [|assumption|rewrite length_map; congruence].
    unfold parsed. now rewrite map_map.
  - rewrite column_set_column;
      [|assumption|rewrite length_map; congruence].
    unfold parsed. now rewrite map_map.
  - intros name Hnd Hnm.
    rewrite column_set_column_other;
      [|congruence|assumption|rewrite length_map; congruence].
    unfold data1. apply column_set_column_other;
      [congruence|assumption|rewrite length_map; congruence].
Qed.


Lemma drop_spec (labels : list nat) (df : DataFrame) :
  (incl labels (map fst (rows df)) ->
   drop labels df =
     Ok (mkFrame (columns df)
           (filter (fun r => negb (existsb (Nat.eqb (fst r)) labels))
                   (rows df))))
  /\ (~ incl labels (map fst (rows df)) -> drop labels df = Raise "KeyError").
Proof.
  unfold drop.
  destruct (forallb (fun l => existsb (Nat.eqb l) (map fst (rows df))) labels)
    eqn:E.
  - split; [reflexivity|]. intros H. exfalso. apply H. intros x Hx.
    rewrite forallb_forall in E. apply existsb_eqb_In. now apply E.
  - split; [|reflexivity]. intros H.
    assert (E' : forallb (fun l => existsb (Nat.eqb l) (map fst (rows df)))
                   labels = true).
    { apply forallb_forall. intros x Hx. apply existsb_eqb_In. now apply H. }
    congruence.
Qed.

Lemma texts_dropna_In (s : string) (l : list cell) :
  In (CText s) l -> In s (texts (dropna l)).
Proof.
  intros H. unfold texts. apply in_flat_map. exists (CText s).
  split; [|now left]. unfold dropna. apply filter_In. now split.
Qed.

Lemma column_row (name : string) (df : DataFrame) (c : list cell) (i : nat)
  (r : nat * list cell) :
  column name df = Some c -> nth_error (rows df) i = Some r ->
  field df name r = nth i c CMissing.
Proof.
  unfold column, field.
  destruct (index_of name (columns df)) as [j|]; [|discriminate].
  intros H Hr; inversion H; subst.
  assert (E : nth_error (map (fun r0 => nth j (snd r0) CMissing) (rows df)) i
              = Some (nth j (snd r) CMissing))
    by (now rewrite nth_error_map, Hr).
  symmetry. now apply nth_error_nth.
Qed.

Lemma processed_row (f : excel_file) (data' : DataFrame) (i : nat) :
  map fst (rows data') = map fst (rows (load_data numeric_text f)) ->
  i < List.length (rows (load_data numeric_text f)) ->
  exists cells, nth_error (rows data') i = Some (i, cells).
Proof.
  intros Hl Hi.
  assert (Hn : List.length (rows data')
               = List.length (rows (load_data numeric_text f)))
    by (rewrite <- (length_map fst), Hl; apply length_map).
  destruct (nth_error (rows data') i) as [[l cells]|] eqn:E.
  - exists cells. f_equal. f_equal.
    assert (E' : nth_error (map fst (rows data')) i = Some l)
      by (now rewrite nth_error_map, E).
    rewrite Hl, load_data_labels in E'.
    rewrite nth_error_nth' with (d := 0) in E' by (now rewrite length_seq).
    rewrite seq_nth in E' by assumption. simpl in E'. congruence.
  - apply nth_error_None in E. lia.
Qed.

(** C4 fails on the code.  A row whose date does not parse gets the month
    text [NaT]: that text is one of the month choices, and the view of that
    month shows the row. *)
Theorem unparsed_date_is_bucketed (f : excel_file) (dates : list cell)
  (i : nat) :
  column "Date" (load_data numeric_text f) = Some dates ->
  i < List.length dates ->
  to_datetime dates i = None ->
  exists data' view,
    date_processing to_datetime (load_data numeric_text f) = Ok data'
    /\ In "NaT" (month_options data')
    /\ view_of data' "NaT" All = Ok view
    /\ In i (options view).
Proof.
  intros Hd Hi Hnat.
  destruct (date_processing_spec (load_data_rectangular f) Hd)
    as [data' [Hp [Hl [Hr [Hc [_ [Hm _]]]]]]].
  pose proof (column_length _ _ Hd) as Hlen.
  assert (Hcell : nth i (map (fun k => month_cell (to_datetime dates k))
                              (seq 0 (List.length dates))) CMissing
                  = CText "NaT").
  { rewrite nth_indep with (d' := month_cell (to_datetime dates 0))
      by (now rewrite length_map, length_seq).
    rewrite (map_nth (fun k => month_cell (to_datetime dates k))).
    rewrite seq_nth by assumption. simpl. now rewrite Hnat. }
  assert (Hi' : i < List.length (rows (load_data numeric_text f))) by lia.
  destruct (@processed_row f data' i Hl Hi') as [cells Hrow].
  pose proof (@column_row _ _ _ _ _ Hm Hrow) as Hfield. rewrite Hcell in Hfield.
  exists data'. unfold view_of, monthly_data, where_, month_options.
  rewrite Hm. unfold field in Hfield. unfold column in Hm.
  destruct (index_of "Month" (columns data')) as [j|]; [|discriminate].
  eexists; split; [exact Hp|]. split; [|split; [reflexivity|]].
  - apply sort_by_In, unique_In, texts_dropna_In.
    rewrite <- Hcell. apply nth_In. now rewrite length_map, length_seq.
  - unfold options; simpl.
    change i with (fst (i, cells)). apply in_map. apply filter_In.
    split; [eapply nth_error_In; eauto|].
    simpl in *. rewrite Hfield. reflexivity.
Qed.

Lemma date_processing_inv (f : excel_file) (data' : DataFrame) :
  date_processing to_datetime (load_data numeric_text f) = Ok data' ->
  exists dates,
    column "Date" (load_data numeric_text f) = Some dates
    /\ map fst (rows data') = seq 0 (List.length (rows data'))
    /\ List.length (rows data') = List.length (rows (load_data numeric_text f))
    /\ columns data' =
         match index_of "Month" (columns (load_data numeric_text f)) with
         | Some _ => columns (load_data numeric_text f)
         | None => columns (load_data numeric_text f) ++ ["Month"]
         end
    /\ column "Date" data' =
         Some (map (fun i => date_cell (to_datetime dates i))
                   (seq 0 (List.length dates)))
    /\ forall name, name <> "Date" -> name <> "Month" ->
         column name data' = column name (load_data numeric_text f).
Proof.
  intros H.
  destruct (column "Date" (load_data numeric_text f)) as [dates|] eqn:Hd;
    [|unfold date_processing in H; rewrite Hd in H; discriminate].
  destruct (date_processing_spec (load_data_rectangular f) Hd)
    as [d [Hp [Hl [Hr [Hc [Hdt [Hm Ho]]]]]]].
  rewrite Hp in H. inversion H; subst d.
  assert (Hn : List.length (rows data')
               = List.length (rows (load_data numeric_text f)))
    by (rewrite <- (length_map fst), Hl; apply length_map).
  exists dates. repeat split; auto.
  rewrite Hl, Hn. apply load_data_labels.
Qed.



(** X16.  Deleting by position: labels below the number of rows are all accepted
    and the rows at the other positions are kept in order; a label that is
    not a position is refused with a KeyError before anything is saved. *)
Theorem remove_at_positions (f : excel_file) (data' : DataFrame)
  (positions : list nat) :
  date_processing to_datetime (load_data numeric_text f) = Ok data' ->
  positions <> [] ->
  (Forall (fun i => i < List.length (rows (load_data numeric_text f))) positions ->
   delete_selected_rows data' positions f
   = (save_data
        (reset_index
           (mkFrame (columns data')
              (filter (fun r => negb (existsb (Nat.eqb (fst r)) positions))
                      (rows data')))) f,
      Deleted (List.length positions)))
  /\ (~ Forall (fun i => i < List.length (rows (load_data numeric_text f))) positions ->
      delete_selected_rows data' positions f = (f, Uncaught "KeyError")).
Proof.
  intros Hp Hne.
  destruct (date_processing_inv f Hp) as [dates [Hd [Hl [Hn _]]]].
  destruct (drop_spec positions data') as [Hok Hko].
  assert (Hiff : incl positions (map fst (rows data'))
                 <-> Forall (fun i => i < List.length
                                        (rows (load_data numeric_text f))) positions).
  { rewrite Forall_forall, Hl, Hn. unfold incl.
    split; intros H x Hx; specialize (H x Hx).
    - apply in_seq in H. lia.
    - apply in_seq. lia. }
  unfold delete_selected_rows. destruct positions as [|x xs]; [congruence|].
  split; intros H.
  - now rewrite (Hok (proj2 Hiff H)).
  - rewrite Hko; [reflexivity|]. intros Hi. apply H. now apply Hiff.
Qed.

Lemma drop_inv (labels : list nat) (df df_all : DataFrame) :
  drop labels df = Ok df_all ->
  columns df_all = columns df /\ incl (rows df_all) (rows df).
Proof.
  unfold drop.
  destruct (forallb _ labels); [|discriminate].
  intros H; inversion H; simpl. split; [reflexivity|].
  intros r Hr. now apply filter_In in Hr.
Qed.

Lemma reset_index_cells (df : DataFrame) :
  map snd (rows (reset_index df)) = map snd (rows df).
Proof.
  unfold reset_index; simpl. apply snd_combine.
  now rewrite length_seq, length_map.
Qed.

(** C1 fails on the code.  Whenever "Delete Selected Rows" saves, over a
    ledger that had the five columns, the sheet it writes has a sixth column
    [Month] and no date cell of it is a text any more. *)
Theorem delete_selected_rows_writes_month (f f' : excel_file) (m : string)
  (sh : show) (selected_rows : list nat) (n : nat) :
  columns (load_data numeric_text f) = COLUMNS ->
  manage_entries numeric_text to_datetime m sh selected_rows f
  = (f', Deleted n) ->
  exists written,
    f' = Workbook [(SHEET_NAME, mkSheet (COLUMNS ++ ["Month"]) written)]
    /\ Forall (fun r => forall s, nth 0 r CMissing <> CText s) written.
Proof.
  intros Hcols H. unfold manage_entries in H.
  destruct (empty (load_data numeric_text f)); [discriminate|].
  destruct (date_processing to_datetime (load_data numeric_text f))
    as [data'|e] eqn:Hp; [|discriminate].
  destruct (view_of data' m sh) as [view|e]; [|discriminate].
  destruct (if empty view then Ok [] else grouped view); [|discriminate].
  unfold delete_selected_rows in H.
  destruct selected_rows as [|x xs]; [discriminate|].
  destruct (drop (x :: xs) data') as [df_all|e] eqn:Hdrop; [|discriminate].
  inversion H; subst; clear H.
  destruct (date_processing_inv f Hp) as [dates [Hd [Hl [Hn [Hc [Hdt _]]]]]].
  rewrite Hcols in Hc. simpl in Hc.
  destruct (drop_inv _ _ Hdrop) as [Hdc Hdr].
  exists (map (map write_cell) (map snd (rows (reset_index df_all)))). split.
  - unfold save_data, save_data_upto, to_excel.
    change (columns (reset_index df_all)) with (columns df_all).
    rewrite Hdc, Hc, map_map. reflexivity.
  - apply Forall_forall. intros r Hr.
    rewrite reset_index_cells, map_map in Hr.
    apply in_map_iff in Hr. destruct Hr as [r0 [<- Hr0]].
    apply Hdr in Hr0. apply In_nth_error in Hr0. destruct Hr0 as [i Hi].
    pose proof (@column_row _ _ _ _ _ Hdt Hi) as Hf.
    unfold field in Hf. rewrite Hc in Hf. simpl in Hf.
    intros s0 E.
    change CMissing with (write_cell CMissing) in E at 1.
    rewrite map_nth, Hf in E.
    assert (Hi' : i < List.length dates).
    { rewrite (column_length _ _ Hd), <- Hn. apply nth_error_Some. congruence. }
    rewrite nth_indep with (d' := date_cell (to_datetime dates 0)) in E
      by (now rewrite length_map, length_seq).
    rewrite (map_nth (fun k => date_cell (to_datetime dates k))) in E.
    destruct (to_datetime dates (nth i (seq 0 (List.length dates)) 0));
      discriminate.
Qed.

(** *** Totals *)




(** *** Appending and loading *)






Section RoundTrip.

(** The words the form can write are not numerals. *)
Hypothesis category_is_text : forall c, numeric_text (category_name c) = None.
Hypothesis txn_type_is_text : forall t, numeric_text (txn_type_name t) = None.
Hypothesis timestamp_is_text : forall d, numeric_text (strftime d) = None.









End RoundTrip.

End Properties.

(** C8 at an unreadable file. *)
Lemma load_data_fail_soft_witness :
  load_data numeric_digits Unreadable = empty_ledger
  /\ empty (load_data numeric_digits Unreadable) = true
  /\ load_data numeric_digits Unreadable
     = load_data numeric_digits (initialize Missing).
Proof.
  apply (load_data_fail_soft numeric_digits Unreadable).
  exists "BadZipFile". reflexivity.
Defined.

(** C9 at the file the script has just created. *)
Lemma remove_last_empty_witness :
  remove_last numeric_digits fresh = (fresh, StInfo "No entries to remove.").
Proof.
  apply (remove_last_empty numeric_digits fresh). reflexivity.
Defined.


(** *** The sample reading of numerals *)





(** *** The statements at the sample ledgers *)

(** C1 at a ledger of five entries with rows 1 and 3 selected. *)
Lemma delete_selected_rows_writes_month_witness :
  exists written,
    after_delete = Workbook [(SHEET_NAME, mkSheet (COLUMNS ++ ["Month"]) written)]
    /\ Forall (fun r => forall s, nth 0 r CMissing <> CText s) written.
Proof.
  apply (@delete_selected_rows_writes_month numeric_digits to_datetime_minutes
           five_entries after_delete "2024-03" All [1; 3] 2).
  - vm_compute. reflexivity.
  - vm_compute. reflexivity.
Defined.

(** C2 at the sheet edited by hand, whose second row has type [Transfer]. *)
Lemma savings_only_is_not_expense_witness :
  exists view,
    view_of (tab2_data edited) "2024-03" SavingsOnly = Ok view
    /\ rows view =
         filter (fun r => equals "2024-03" (field (tab2_data edited) "Month" r)
                          && negb (equals "Expense"
                                     (field (tab2_data edited) "Type" r)))
                (rows (tab2_data edited))
    /\ forall r, In r (rows view) <->
                 In r (rows (tab2_data edited))
                 /\ field (tab2_data edited) "Month" r = CText "2024-03"
                 /\ field (tab2_data edited) "Type" r <> CText "Expense".
Proof.
  apply (@savings_only_is_not_expense (tab2_data edited) "2024-03").
  - vm_compute. tauto.
  - vm_compute. tauto.
Defined.

(** The row of type [Transfer] is in the "Savings Only" view. *)
Example transfer_is_in_savings_view :
  options (tab2_view edited "2024-03" SavingsOnly) = [1; 3].
Proof. vm_compute. reflexivity. Qed.


(** Notes that are not kept as they were typed: a missing-value text, a
    formula, and a numeral in a column of numerals. *)
Example notes_not_kept :
  let note_of (typed : string) :=
    map (fun r => nth 4 (snd r) CMissing)
      (rows (load_data numeric_digits
               (append_all numeric_digits
                  [mkRequest jan5 Food (10 # 1) Expense typed] fresh))) in
  note_of "NA" = [CMissing]
  /\ note_of "=A1" = [CMissing]
  /\ note_of "12" = [CNumber (12 # 1)]
  /\ note_of "true" = [CBool true]
  /\ note_of "milk" = [CText "milk"].
Proof. vm_compute. repeat split. Qed.


(** C4 at the sheet edited by hand: row 0 has the date "last week". *)
Lemma unparsed_date_is_bucketed_witness :
  exists data' view,
    date_processing to_datetime_minutes (load_data numeric_digits edited)
    = Ok data'
    /\ In "NaT" (month_options data')
    /\ view_of data' "NaT" All = Ok view
    /\ In 0 (options view).
Proof.
  apply (@unparsed_date_is_bucketed numeric_digits to_datetime_minutes edited
           [CText "last week"; CText "2024-03-07 09:05";
            CText "2024-03-09 18:40"; CText "2024-03-11 08:00"] 0).
  - vm_compute. reflexivity.
  - simpl. lia.
  - vm_compute. reflexivity.
Defined.

(** The month choices for that sheet, the first being the default. *)
Example edited_month_options :
  month_options (tab2_data edited) = ["NaT"; "2024-03"].
Proof. vm_compute. reflexivity. Qed.

(** C6 fails on the code.  Five entries, rows 1 and 3 deleted: the three
    rows that are loaded afterwards are those of positions 0, 2 and 4 in
    that order with their category, amount, type and note, but their date
    is a timestamp where it was a text and they have a sixth cell, so they
    are not the rows that were there before. *)
Theorem remove_at_rewrites_survivors :
  let before := map snd (rows (load_data numeric_digits five_entries)) in
  let after := map snd (rows (load_data numeric_digits after_delete)) in
  after =
    [[CTimestamp mar7; CText "Housing"; CNumber (1000 # 1); CText "Expense";
      CText "rent"; CText "2024-03"];
     [CTimestamp mar7; CText "Transportation"; CNumber (40 # 1);
      CText "Expense"; CText "bus"; CText "2024-03"];
     [CTimestamp mar7; CText "Personal Care"; CNumber (800 # 1);
      CText "Expense"; CText "gym"; CText "2024-03"]]
  /\ after <> [nth 0 before []; nth 2 before []; nth 4 before []]
  /\ columns (load_data numeric_digits after_delete) = COLUMNS ++ ["Month"].
Proof.
  vm_compute. repeat split. intros H. discriminate H.
Qed.


(** Three food expenses of 100, 200 and 50 and one food income of 500. *)
Example food_march_totals :
  grouped (tab2_view food_march "2024-03" ExpensesOnly)
  = Ok [("Food", (350 # 1)%Q)]
  /\ grouped (tab2_view food_march "2024-03" SavingsOnly)
     = Ok [("Food", (500 # 1)%Q)].
Proof. vm_compute. split; reflexivity. Qed.


(** Positions 1 and 3 of five are accepted; position 7 is refused and the
    file is left as it was. *)
Example remove_at_out_of_range :
  delete_selected_rows (tab2_data five_entries) [1; 7] five_entries
  = (five_entries, Uncaught "KeyError").
Proof. vm_compute. reflexivity. Qed.

(** ** Further properties of the script *)



Lemma filter_absent_nil (cols names : list string) :
  incl names cols ->
  filter (fun n => negb (existsb (String.eqb n) cols)) names = [].
Proof.
  induction names as [|n names IH]; simpl; intros H; [reflexivity|].
  assert (E : existsb (String.eqb n) cols = true).
  { apply existsb_exists. exists n. split; [apply H; now left|].
    apply String.eqb_refl. }
  rewrite E. simpl. apply IH. intros x Hx. apply H. now right.
Qed.


Lemma ascii_compare_lt_trans (a b c : ascii) :
  Ascii.compare a b = Lt -> Ascii.compare b c = Lt -> Ascii.compare a c = Lt.
Proof.
  unfold Ascii.compare. rewrite !N.compare_lt_iff. apply N.lt_trans.
Qed.

Lemma ascii_compare_refl (a : ascii) : Ascii.compare a a = Eq.
Proof. unfold Ascii.compare. apply N.compare_refl. Qed.

Lemma string_compare_lt_trans (s1 s2 s3 : string) :
  String.compare s1 s2 = Lt -> String.compare s2 s3 = Lt ->
  String.compare s1 s3 = Lt.
Proof.
  revert s2 s3. induction s1 as [|a s1 IH]; intros [|b s2] [|c s3]; simpl;
    try discriminate; auto.
  destruct (Ascii.compare a b) eqn:E1; try discriminate;
    destruct (Ascii.compare b c) eqn:E2; try discriminate.
  - apply Ascii.compare_eq_iff in E1, E2. subst.
    rewrite ascii_compare_refl. apply IH.
  - apply Ascii.compare_eq_iff in E1. subst. now rewrite E2.
  - apply Ascii.compare_eq_iff in E2. subst. now rewrite E1.
  - now rewrite (ascii_compare_lt_trans _ _ _ E1 E2).
Qed.

Lemma string_compare_refl (s : string) : String.compare s s = Eq.
Proof.
  induction s as [|a s IH]; simpl; [reflexivity|].
  now rewrite ascii_compare_refl.
Qed.

Lemma string_leb_trans (s1 s2 s3 : string) :
  String.leb s1 s2 = true -> String.leb s2 s3 = true -> String.leb s1 s3 = true.
Proof.
  unfold String.leb.
  destruct (String.compare s1 s2) eqn:E1; try discriminate;
    destruct (String.compare s2 s3) eqn:E2; try discriminate; intros _ _.
  - apply String.compare_eq_iff in E1, E2. subst.
    now rewrite string_compare_refl.
  - apply String.compare_eq_iff in E1. subst. now rewrite E2.
  - apply String.compare_eq_iff in E2. subst. now rewrite E1.
  - now rewrite (string_compare_lt_trans _ _ _ E1 E2).
Qed.

Lemma filter_split_perm (A : Type) (p : A -> bool) (l : list A) :
  Permutation l (filter p l ++ filter (fun x => negb (p x)) l).
Proof.
  induction l as [|a l IH]; simpl; [constructor|].
  destruct (p a); simpl.
  - now constructor.
  - rewrite IH at 1. apply Permutation_middle.
Qed.

Lemma texts_dropna_inv (s : string) (l : list cell) :
  In s (texts (dropna l)) -> In (CText s) l.
Proof.
  unfold texts. rewrite in_flat_map. intros [c [Hc Hs]].
  apply filter_In in Hc. destruct Hc as [Hc _].
  destruct c; simpl in Hs; try contradiction.
  destruct Hs as [->|[]]. assumption.
Qed.

Lemma four_digits (y : nat) :
  y < 100 * 100 ->
  y = 1000 * ((y / 1000) mod 10) + 100 * ((y / 100) mod 10)
      + 10 * ((y / 10) mod 10) + y mod 10.
Proof.
  intros H.
  replace (y / 100) with (y / 10 / 10) by (now rewrite Nat.Div0.div_div).
  replace (y / 1000) with (y / 10 / 10 / 10)
    by (now rewrite !Nat.Div0.div_div).
  pose proof (Nat.div_mod_eq y 10) as H1.
  pose proof (Nat.div_mod_eq (y / 10) 10) as H2.
  pose proof (Nat.div_mod_eq (y / 10 / 10) 10) as H3.
  pose proof (Nat.div_mod_eq (y / 10 / 10 / 10) 10) as H4.
  pose proof (Nat.mod_upper_bound y 10) as B1.
  pose proof (Nat.mod_upper_bound (y / 10) 10) as B2.
  pose proof (Nat.mod_upper_bound (y / 10 / 10) 10) as B3.
  pose proof (Nat.mod_upper_bound (y / 10 / 10 / 10) 10) as B4.
  lia.
Qed.
Lemma two_digits (m : nat) : m < 100 -> m = 10 * ((m / 10) mod 10) + m mod 10.
Proof.
  intros H.
  pose proof (Nat.div_mod_eq m 10) as H1.
  pose proof (Nat.div_mod_eq (m / 10) 10) as H2.
  pose proof (Nat.mod_upper_bound m 10) as B1.
  pose proof (Nat.mod_upper_bound (m / 10) 10) as B2.
  lia.
Qed.

Lemma digit_mod (a b : nat) : digit a = digit b -> a mod 10 = b mod 10.
Proof.
  unfold digit. intros H. apply (f_equal nat_of_ascii) in H.
  pose proof (Nat.mod_upper_bound a 10). pose proof (Nat.mod_upper_bound b 10).
  rewrite !nat_ascii_embedding in H by lia. lia.
Qed.

Lemma string_cons_inj (a b : ascii) (s t : string) :
  String a s = String b t -> a = b /\ s = t.
Proof. intros H. now inversion H. Qed.







Lemma filter_map_fst (A : Type) (p : nat -> bool) (l : list (nat * A)) :
  map fst (filter (fun r => p (fst r)) l) = filter p (map fst l).
Proof.
  induction l as [|a l IH]; simpl; [reflexivity|].
  destruct (p (fst a)); simpl; now rewrite IH.
Qed.

Section Further.

Variable numeric_text : string -> option Q.
Variable to_datetime : list cell -> nat -> option datetime.

Lemma parse_sheet_shape (sh : sheet) :
  columns (parse_sheet numeric_text sh) = header sh
  /\ List.length (rows (parse_sheet numeric_text sh)) = List.length (body sh).
Proof.
  split; [reflexivity|].
  rewrite <- (length_map fst), parse_sheet_labels. apply length_seq.
Qed.

Lemma load_data_saved (df : DataFrame) (f : excel_file) :
  load_data numeric_text (save_data df f)
  = parse_sheet numeric_text (to_excel df).
Proof. reflexivity. Qed.

(** X1.  The start-up step creates the workbook only when there is none,
    and never changes what [load_data] returns. *)
Theorem initialize_keeps_ledger (f : excel_file) :
  load_data numeric_text (initialize f) = load_data numeric_text f
  /\ initialize f <> Missing
  /\ (f <> Missing -> initialize f = f).
Proof.
  destruct f; repeat split; try discriminate; try reflexivity.
  intros H; now destruct H.
Qed.

(** X2.  An accepted "Add Entry" makes the loaded ledger one row longer,
    whatever the file held, and keeps the columns the file had when the
    five columns are among them. *)
Theorem add_entry_grows_by_one (now : datetime) (c : category) (amount : Q)
  (t : txn_type) (note : string) (f : excel_file) :
  (0 < amount)%Q ->
  let f' := fst (add_entry numeric_text now c amount t note f) in
  snd (add_entry numeric_text now c amount t note f) = Added t c amount
  /\ List.length (rows (load_data numeric_text f'))
     = S (List.length (rows (load_data numeric_text f)))
  /\ columns (load_data numeric_text f')
     = columns (load_data numeric_text f)
       ++ filter (fun n => negb (existsb (String.eqb n)
                                   (columns (load_data numeric_text f))))
                 COLUMNS
  /\ (incl COLUMNS (columns (load_data numeric_text f)) ->
      columns (load_data numeric_text f')
      = columns (load_data numeric_text f)).
Proof.
  intros Hpos.
  assert (Ea : Qle_bool amount 0 = false).
  { apply not_true_is_false. intros E. apply Qle_bool_iff in E.
    now apply Qlt_not_le in Hpos. }
  unfold add_entry. rewrite Ea. cbn [fst snd]. cbv zeta.
  rewrite load_data_saved.
  destruct (parse_sheet_shape
              (to_excel (concat_row (load_data numeric_text f)
                           (new_entry now c amount t note)))) as [-> ->].
  assert (Hc : header (to_excel (concat_row (load_data numeric_text f)
                                   (new_entry now c amount t note)))
               = columns (load_data numeric_text f)
                 ++ filter (fun n => negb (existsb (String.eqb n)
                                     (columns (load_data numeric_text f))))
                           COLUMNS) by reflexivity.
  split; [reflexivity|]. split; [|split].
  - unfold to_excel, concat_row. cbn [body rows].
    rewrite length_map, length_combine, length_seq, length_app, length_map.
    change (List.length [?x]) with 1. lia.
  - exact Hc.
  - intros Hi. rewrite Hc, filter_absent_nil by assumption. apply app_nil_r.
Qed.

(** X3.  When the workbook cannot be read, an accepted "Add Entry" replaces
    it by a workbook whose only sheet holds the five columns and the new
    row alone. *)
Theorem add_entry_over_unreadable (now : datetime) (c : category)
  (amount : Q) (t : txn_type) (note : string) (f : excel_file) :
  (exists e, read_excel numeric_text f = Raise e) ->
  (0 < amount)%Q ->
  fst (add_entry numeric_text now c amount t note f)
  = Workbook
      [(SHEET_NAME,
        mkSheet COLUMNS
          [map write_cell (given_row (mkRequest now c amount t note))])].
Proof.
  intros [e He] Hpos.
  assert (Ea : Qle_bool amount 0 = false).
  { apply not_true_is_false. intros E. apply Qle_bool_iff in E.
    now apply Qlt_not_le in Hpos. }
  unfold add_entry. rewrite Ea. unfold load_data. rewrite He. reflexivity.
Qed.




(** X8.  "Recent Entries" shows the last ten rows of the ledger, or all of
    them when there are fewer, in ledger order and under the ledger's
    columns; for a ledger without rows it shows the five columns. *)
Theorem recent_entries_are_the_last (f : excel_file) :
  columns (load_data numeric_text f) <> [] ->
  let all := rows (load_data numeric_text f) in
  all = firstn (List.length all - 10) all
        ++ rows (recent_entries numeric_text f)
  /\ List.length (rows (recent_entries numeric_text f))
     = Nat.min (List.length all) 10
  /\ (all <> [] ->
      columns (recent_entries numeric_text f)
      = columns (load_data numeric_text f))
  /\ (all = [] -> recent_entries numeric_text f = mkFrame COLUMNS []).
Proof.
  intros Hc. cbv zeta. unfold recent_entries, tail.
  destruct (load_data numeric_text f) as [cols l]. cbn [columns rows] in *.
  destruct cols as [|c0 cols]; [congruence|].
  assert (Hlen : List.length (skipn (List.length l - 10) l)
                 = Nat.min (List.length l) 10)
    by (rewrite length_skipn; lia).
  destruct l as [|r rest].
  - simpl. repeat split; congruence.
  - set (k := List.length (r :: rest) - 10) in *.
    pose proof (firstn_skipn k (r :: rest)) as Hsplit.
    unfold empty. cbn [columns rows].
    destruct (skipn k (r :: rest)) as [|r1 shown] eqn:E2.
    + simpl in Hlen. lia.
    + cbn [negb columns rows]. repeat split; congruence.
Qed.

(** X9.  The two type filters split the rows of a month between them:
    every row is in exactly one of "Expenses Only" and "Savings Only", and
    "All" is the month itself. *)
Theorem type_filters_split (monthly : DataFrame) :
  In "Type" (columns monthly) ->
  exists expenses savings,
    filtered ExpensesOnly monthly = Ok expenses
    /\ filtered SavingsOnly monthly = Ok savings
    /\ filtered All monthly = Ok monthly
    /\ Permutation (rows monthly) (rows expenses ++ rows savings)
    /\ forall r, In r (rows expenses) -> ~ In r (rows savings).
Proof.
  intros H. destruct (index_of_In _ _ H) as [j Ej].
  unfold filtered, where_. rewrite Ej.
  do 2 eexists. repeat split.
  - cbn [rows].
    apply (filter_split_perm
             (fun r => equals "Expense" (nth j (snd r) CMissing))).
  - cbn [rows]. intros r H1 H2.
    apply filter_In in H1, H2. destruct H1 as [_ H1], H2 as [_ H2].
    rewrite H1 in H2. discriminate.
Qed.

Lemma processed_month_column (f : excel_file) (data' : DataFrame) :
  date_processing to_datetime (load_data numeric_text f) = Ok data' ->
  exists dates,
    column "Date" (load_data numeric_text f) = Some dates
    /\ column "Month" data'
       = Some (map (fun i => month_cell (to_datetime dates i))
                   (seq 0 (List.length dates)))
    /\ List.length dates = List.length (rows data').
Proof.
  intros H.
  destruct (column "Date" (load_data numeric_text f)) as [dates|] eqn:Hd;
    [|unfold date_processing in H; rewrite Hd in H; discriminate].
  destruct (@date_processing_spec to_datetime _ _
              (load_data_rectangular numeric_text f) Hd)
    as [d [Hp [Hl [_ [_ [_ [Hm _]]]]]]].
  rewrite Hp in H. inversion H; subst d.
  exists dates. repeat split; auto.
  rewrite (column_length _ _ Hd), <- (length_map fst), <- Hl.
  apply length_map.
Qed.

(** X10.  After the date processing every row of the ledger has a month
    text that is one of the month choices, and the row is shown under that
    month and under no other; every month choice shows at least one row. *)
Theorem monthly_views_cover (f : excel_file) (data' : DataFrame) :
  date_processing to_datetime (load_data numeric_text f) = Ok data' ->
  (forall r, In r (rows data') ->
     exists m,
       In m (month_options data')
       /\ forall m',
            (exists view, view_of data' m' All = Ok view /\ In r (rows view))
            <-> m' = m)
  /\ (forall m, In m (month_options data') ->
        exists view, view_of data' m All = Ok view /\ rows view <> []).
Proof.
  intros Hp.
  destruct (processed_month_column f Hp) as [dates [Hd [Hm Hlen]]].
  set (months := map (fun i => month_cell (to_datetime dates i))
                     (seq 0 (List.length dates))) in *.
  assert (Hmlen : List.length months = List.length (rows data'))
    by (unfold months; now rewrite length_map, length_seq).
  assert (Hopt : forall m, In m (month_options data') <-> In (CText m) months).
  { intros m. unfold month_options. rewrite Hm.
    rewrite sort_by_In, unique_In. split;
      [apply texts_dropna_inv|apply texts_dropna_In]. }
  assert (Htext : forall c, In c months -> exists m, c = CText m).
  { intros c Hc. unfold months in Hc. apply in_map_iff in Hc.
    destruct Hc as [i [<- _]]. destruct (to_datetime dates i); simpl; eauto. }
  pose proof Hm as Hcol. unfold column in Hcol.
  destruct (index_of "Month" (columns data')) as [j|] eqn:Ej; [|discriminate].
  inversion Hcol as [Hcells]; clear Hcol.
  assert (Hview : forall m,
            view_of data' m All
            = Ok (mkFrame (columns data')
                    (filter (fun r => equals m (nth j (snd r) CMissing))
                            (rows data'))))
    by (intros m; unfold view_of, monthly_data, where_; now rewrite Ej).
  split.
  - intros r Hr.
    assert (Hc : In (nth j (snd r) CMissing) months)
      by (rewrite <- Hcells; now apply (in_map (fun r0 => nth j (snd r0) CMissing))).
    destruct (Htext _ Hc) as [m Em]. exists m. split.
    + apply Hopt. now rewrite <- Em.
    + intros m'. rewrite Hview. split.
      * intros [view [Hv Hin]]. inversion Hv; subst view. cbn [rows] in Hin.
        apply filter_In in Hin. destruct Hin as [_ Hin].
        apply equals_true in Hin. congruence.
      * intros ->. eexists. split; [reflexivity|]. cbn [rows].
        apply filter_In. split; [assumption|]. now apply equals_true.
  - intros m Hin. apply Hopt in Hin. rewrite <- Hcells in Hin.
    apply in_map_iff in Hin. destruct Hin as [r [Er Hr]].
    rewrite Hview. eexists. split; [reflexivity|]. cbn [rows].
    intros E.
    assert (Hf : In r (filter (fun r0 => equals m (nth j (snd r0) CMissing))
                              (rows data')))
      by (apply filter_In; split; [assumption|now apply equals_true]).
    rewrite E in Hf. contradiction.
Qed.

(** X11.  The month choices are distinct and in descending order, so the
    first one, which the month box selects by default, is the greatest. *)
Theorem month_options_descending (data : DataFrame) :
  NoDup (month_options data)
  /\ StronglySorted (fun a b => String.leb b a = true) (month_options data)
  /\ forall m, In m (month_options data) ->
       String.leb m (hd "" (month_options data)) = true.
Proof.
  assert (Hs : StronglySorted (fun a b => String.leb b a = true)
                 (month_options data)).
  { unfold month_options. destruct (column "Month" data); [|constructor].
    apply (@sort_by_ordered _ (fun a b => String.leb b a)).
    - intros a b. destruct (String.leb_total a b); auto.
    - intros a b c H1 H2. eapply string_leb_trans; eauto. }
  split; [|split; [exact Hs|]].
  - unfold month_options. destruct (column "Month" data); [|constructor].
    rewrite <- sort_by_perm. apply unique_NoDup.
  - intros m Hin. destruct (month_options data) as [|m0 rest];
      [contradiction|]. simpl.
    destruct Hin as [->|Hin].
    + unfold String.leb. now rewrite string_compare_refl.
    + inversion Hs as [|? ? _ Hall]; subst.
      rewrite Forall_forall in Hall. now apply Hall.
Qed.


(** X13.  A deletion of distinct rows of the ledger shortens the ledger by
    as many rows as were selected, which is the number it reports. *)
Theorem delete_selected_rows_count (f : excel_file) (data' : DataFrame)
  (selected_rows : list nat) :
  date_processing to_datetime (load_data numeric_text f) = Ok data' ->
  selected_rows <> [] ->
  NoDup selected_rows ->
  incl selected_rows (map fst (rows data')) ->
  snd (delete_selected_rows data' selected_rows f)
  = Deleted (List.length selected_rows)
  /\ List.length
       (rows (load_data numeric_text
                (fst (delete_selected_rows data' selected_rows f))))
     + List.length selected_rows
     = List.length (rows (load_data numeric_text f)).
Proof.
  intros Hp Hne Hnd Hincl.
  destruct (@date_processing_inv numeric_text to_datetime f data' Hp)
    as [dates [_ [Hl [Hn _]]]].
  destruct (drop_spec selected_rows data') as [Hok _].
  unfold delete_selected_rows.
  destruct selected_rows as [|x xs] eqn:E; [congruence|]. rewrite <- E in *.
  rewrite (Hok Hincl). cbn [fst snd]. split; [reflexivity|].
  rewrite load_data_saved.
  match goal with
  | |- context [parse_sheet numeric_text ?sh] =>
      destruct (parse_sheet_shape sh) as [_ ->]
  end.
  unfold to_excel. cbn [body]. rewrite length_map.
  unfold reset_index. cbn [rows].
  rewrite length_combine, length_seq, length_map, Nat.min_id.
  set (p := fun r : nat * list cell => existsb (Nat.eqb (fst r)) selected_rows).
  pose proof (Permutation_length (filter_split_perm p (rows data'))) as Hsplit.
  rewrite length_app in Hsplit.
  assert (Hsel : List.length (filter p (rows data'))
                 = List.length selected_rows).
  { rewrite <- (length_map fst). unfold p.
    rewrite (filter_map_fst (fun x => existsb (Nat.eqb x) selected_rows)).
    apply Permutation_length, NoDup_Permutation.
    - apply NoDup_filter. rewrite Hl. apply seq_NoDup.
    - assumption.
    - intros y. rewrite filter_In, existsb_eqb_In. split; [tauto|].
      intros H. split; [now apply Hincl|assumption]. }
  unfold p in *. cbv beta in *. lia.
Qed.

(** X14.  The date processing raises a KeyError when the ledger has no
    [Date] column; otherwise it keeps the rows, their order and labels and
    every column other than [Date] and [Month], puts the parsed timestamp
    or a missing value in [Date], and a text in [Month]. *)
Theorem date_processing_touches_dates_only (f : excel_file) :
  match column "Date" (load_data numeric_text f) with
  | None =>
      date_processing to_datetime (load_data numeric_text f)
      = Raise "KeyError"
  | Some dates =>
      exists data',
        date_processing to_datetime (load_data numeric_text f) = Ok data'
        /\ map fst (rows data') = map fst (rows (load_data numeric_text f))
        /\ column "Date" data'
           = Some (map (fun i => date_cell (to_datetime dates i))
                       (seq 0 (List.length dates)))
        /\ column "Month" data'
           = Some (map (fun i => month_cell (to_datetime dates i))
                       (seq 0 (List.length dates)))
        /\ forall name, name <> "Date" -> name <> "Month" ->
             column name data' = column name (load_data numeric_text f)
  end.
Proof.
  destruct (column "Date" (load_data numeric_text f)) as [dates|] eqn:Hd.
  - destruct (@date_processing_spec to_datetime _ _
                (load_data_rectangular numeric_text f) Hd)
      as [d [Hp [Hl [_ [_ [Hdt [Hm Ho]]]]]]].
    exists d. repeat split; assumption.
  - unfold date_processing. now rewrite Hd.
Qed.

(** X15.  Two timestamps get the same month text exactly when they are in
    the same month of the same year. *)
Theorem month_key_same_month (d1 d2 : datetime) :
  (Z.of_nat (year d1) < 10000)%Z -> (Z.of_nat (year d2) < 10000)%Z ->
  month d1 < 100 -> month d2 < 100 ->
  (month_key d1 = month_key d2 <-> year d1 = year d2 /\ month d1 = month d2).
Proof.
  intros Hy1 Hy2 Hm1 Hm2. split.
  - unfold month_key, pad4, pad2. cbn [append]. intros H.
    apply string_cons_inj in H. destruct H as [E1 H].
    apply string_cons_inj in H. destruct H as [E2 H].
    apply string_cons_inj in H. destruct H as [E3 H].
    apply string_cons_inj in H. destruct H as [E4 H].
    apply string_cons_inj in H. destruct H as [_ H].
    apply string_cons_inj in H. destruct H as [E5 H].
    apply string_cons_inj in H. destruct H as [E6 _].
    apply digit_mod in E1, E2, E3, E4, E5, E6.
    assert (B1 : year d1 < 100 * 100) by lia.
    assert (B2 : year d2 < 100 * 100) by lia.
    split.
    + etransitivity; [exact (@four_digits (year d1) B1)|].
      rewrite E1, E2, E3, E4. symmetry. now apply four_digits.
    + etransitivity; [exact (@two_digits (month d1) Hm1)|].
      rewrite E5, E6. symmetry. now apply two_digits.
  - intros [Ey Em]. unfold month_key. now rewrite Ey, Em.
Qed.

Section FormEntries.

Hypothesis category_is_text : forall c, numeric_text (category_name c) = None.
Hypothesis txn_type_is_text : forall t, numeric_text (txn_type_name t) = None.
Hypothesis timestamp_is_text : forall d, numeric_text (strftime d) = None.


End FormEntries.

End Further.

(** *** The further properties at the sample ledgers *)

(** X2 at a ledger of one entry. *)
Lemma add_entry_grows_by_one_witness :
  let add := add_entry numeric_digits mar7 Housing (1000 # 1) Expense "rent" in
  snd (add one_entry) = Added Expense Housing (1000 # 1)
  /\ List.length (rows (load_data numeric_digits (fst (add one_entry))))
     = S (List.length (rows (load_data numeric_digits one_entry)))
  /\ columns (load_data numeric_digits (fst (add one_entry)))
     = columns (load_data numeric_digits one_entry)
       ++ filter (fun n => negb (existsb (String.eqb n)
                                   (columns (load_data numeric_digits
                                               one_entry))))
                 COLUMNS
  /\ (incl COLUMNS (columns (load_data numeric_digits one_entry)) ->
      columns (load_data numeric_digits (fst (add one_entry)))
      = columns (load_data numeric_digits one_entry)).
Proof.
  apply (@add_entry_grows_by_one numeric_digits mar7 Housing (1000 # 1)
           Expense "rent" one_entry).
  reflexivity.
Defined.

(** X3 at a file that is not a workbook. *)
Lemma add_entry_over_unreadable_witness :
  fst (add_entry numeric_digits mar7 Housing (1000 # 1) Expense "rent"
         Unreadable)
  = Workbook [(SHEET_NAME, mkSheet COLUMNS [map write_cell (given_row rent)])].
Proof.
  apply (@add_entry_over_unreadable numeric_digits mar7 Housing (1000 # 1)
           Expense "rent" Unreadable).
  - exists "BadZipFile". reflexivity.
  - reflexivity.
Defined.



(** A text that begins with [=] is lost when a loaded ledger is saved
    back: saving what was loaded is not always without effect. *)
Example save_load_loses_formula :
  let f := Workbook [(SHEET_NAME, mkSheet ["Note"] [[CText "=A1"]])] in
  load_data numeric_digits f = mkFrame ["Note"] [(0, [CText "=A1"])]
  /\ load_data numeric_digits (save_data (load_data numeric_digits f) f)
     = mkFrame ["Note"] [(0, [CMissing])].
Proof. vm_compute. split; reflexivity. Qed.


(** X8 at a ledger of twelve entries: the rows labelled 2 to 11 are shown. *)
Lemma recent_entries_are_the_last_witness :
  let all := rows (load_data numeric_digits twelve_entries) in
  all = firstn (List.length all - 10) all
        ++ rows (recent_entries numeric_digits twelve_entries)
  /\ List.length (rows (recent_entries numeric_digits twelve_entries))
     = Nat.min (List.length all) 10
  /\ (all <> [] ->
      columns (recent_entries numeric_digits twelve_entries)
      = columns (load_data numeric_digits twelve_entries))
  /\ (all = [] ->
      recent_entries numeric_digits twelve_entries = mkFrame COLUMNS []).
Proof.
  apply (@recent_entries_are_the_last numeric_digits twelve_entries).
  vm_compute. discriminate.
Defined.

Example recent_entries_labels :
  map fst (rows (recent_entries numeric_digits twelve_entries))
  = [2; 3; 4; 5; 6; 7; 8; 9; 10; 11].
Proof. vm_compute. reflexivity. Qed.

(** X9 at the sheet edited by hand. *)
Lemma type_filters_split_witness :
  exists expenses savings,
    filtered ExpensesOnly (tab2_data edited) = Ok expenses
    /\ filtered SavingsOnly (tab2_data edited) = Ok savings
    /\ filtered All (tab2_data edited) = Ok (tab2_data edited)
    /\ Permutation (rows (tab2_data edited)) (rows expenses ++ rows savings)
    /\ forall r, In r (rows expenses) -> ~ In r (rows savings).
Proof.
  apply (@type_filters_split (tab2_data edited)).
  vm_compute. tauto.
Defined.

(** X10 at the sheet edited by hand. *)
Lemma monthly_views_cover_witness :
  let data' := tab2_data edited in
  (forall r, In r (rows data') ->
     exists m,
       In m (month_options data')
       /\ forall m',
            (exists view, view_of data' m' All = Ok view /\ In r (rows view))
            <-> m' = m)
  /\ (forall m, In m (month_options data') ->
        exists view, view_of data' m All = Ok view /\ rows view <> []).
Proof.
  apply (@monthly_views_cover numeric_digits to_datetime_minutes edited
           (tab2_data edited)).
  vm_compute. reflexivity.
Defined.


(** X13 at a ledger of five entries with rows 1 and 3 selected. *)
Lemma delete_selected_rows_count_witness :
  snd (delete_selected_rows (tab2_data five_entries) [1; 3] five_entries)
  = Deleted 2
  /\ List.length
       (rows (load_data numeric_digits
                (fst (delete_selected_rows (tab2_data five_entries) [1; 3]
                        five_entries))))
     + 2
     = List.length (rows (load_data numeric_digits five_entries)).
Proof.
  apply (@delete_selected_rows_count numeric_digits to_datetime_minutes
           five_entries (tab2_data five_entries) [1; 3]).
  - vm_compute. reflexivity.
  - discriminate.
  - repeat constructor; simpl; intuition discriminate.
  - intros x Hx. vm_compute. simpl in Hx. tauto.
Defined.

(** X15 at two days of January 2024. *)
Lemma month_key_same_month_witness :
  month_key jan5 = month_key jan20
  <-> year jan5 = year jan20 /\ month jan5 = month jan20.
Proof.
  apply (@month_key_same_month jan5 jan20); simpl; lia.
Defined.

(** X16 at a ledger of five entries, where 7 is not a position. *)
Lemma remove_at_positions_witness :
  let data' := tab2_data five_entries in
  let positions := [1; 7] in
  (Forall (fun i => i < List.length (rows (load_data numeric_digits
                                             five_entries))) positions ->
   delete_selected_rows data' positions five_entries
   = (save_data
        (reset_index
           (mkFrame (columns data')
              (filter (fun r => negb (existsb (Nat.eqb (fst r)) positions))
                      (rows data')))) five_entries,
      Deleted (List.length positions)))
  /\ (~ Forall (fun i => i < List.length (rows (load_data numeric_digits
                                                five_entries))) positions ->
      delete_selected_rows data' positions five_entries
      = (five_entries, Uncaught "KeyError")).
Proof.
  apply (@remove_at_positions numeric_digits to_datetime_minutes five_entries
           (tab2_data five_entries) [1; 7]).
  - vm_compute. reflexivity.
  - discriminate.
Defined.
